(** * ObsPy test launcher ([obspy/core/scripts/runtests.py])

    A shallow embedding of the suite resolver ([_getSuite]), the report
    assembler ([_createReport]), [runTests] and [main], together with the
    properties of the launcher's specification.

    Python dictionaries are finite maps ([gmap]) keyed by strings, the
    interpreter's surroundings (the unittest loader and runner, the import
    system, the [platform] module, the XML-RPC server, the process
    environment) are the fields of a [World], and what the program does to
    the outside is the list of [event]s it emits, in order. *)

From Stdlib Require Import Ascii.
From stdpp Require Import gmap strings list fin_maps.

Local Open Scope Z_scope.
Set Warnings "-register-all,-clear-no-such-hyp".

(** ** Python values and exceptions *)

(** The values that end up inside the report's inner dictionaries: strings,
    tuples (the only kind [isinstance(temp, tuple)] singles out) and, for
    any other object, an integer. *)
Inductive pyval :=
| VStr (s : string)
| VInt (n : Z)
| VTuple (l : list pyval).

(** A raised exception: whether its class derives from [Exception] (what
    [except Exception, e] catches; a bare [except:] catches everything),
    what [str(e)] prints, and the status the process exits with when
    nothing catches it (1, or the code of a [SystemExit]). *)
Record exn := Exn {
  exn_is_Exception : bool;
  exn_str : string;
  exn_exit_status : Z
}.

Definition KeyError (k : string) : exn := Exn true k 1.
Definition TypeError (msg : string) : exn := Exn true msg 1.
Definition IndexError (msg : string) : exn := Exn true msg 1.
(** [None.name] *)
Definition NoneType_AttributeError (name : string) : exn :=
  Exn true ("'NoneType' object has no attribute '" +:+ name +:+ "'") 1.

Inductive result (A : Type) :=
| Ok (a : A)
| Raise (e : exn).
Arguments Ok {A} a.
Arguments Raise {A} e.

Definition ok_of {A} (r : result A) : option A :=
  match r with Ok a => Some a | Raise _ => None end.

(** ** unittest objects *)

(** A test object; [tc_str t] is what [str(t)] returns. Two distinct test
    objects may print alike. *)
Record TestCase := { tc_id : nat; tc_str : string }.

Definition str (t : TestCase) : string := tc_str t.

Inductive TestSuite :=
| Case (t : TestCase)
| Suite (tests : list TestSuite).

(** [ut.suiteClass] is [unittest.TestSuite]. *)
Definition suiteClass (suites : list TestSuite) : TestSuite := Suite suites.

(** The runner's result object, as far as the launcher reads it. *)
Record TestResult := {
  errors : list (TestCase * string);
  failures : list (TestCase * string);
  wasSuccessful : bool
}.

(** ** The report record *)

(** A top-level value of the report: the timestamp or an inner dictionary. *)
Inductive entry :=
| Timestamp (t : Z)
| Dict (d : gmap string pyval).

(** The second argument of [__import__]: the source passes a string in one
    place and a list in the other. *)
Inductive fromlist :=
| FromStr (s : string)
| FromList (l : list string).

(** An imported module, as far as the launcher reads it: the attribute
    [__version__] and the call [coreVersion()]. *)
Record PyModule := {
  mod_version : result pyval;
  mod_coreVersion : result pyval
}.

(** The result of [parser.parse_args()]: the three flags and [parser.largs]. *)
Record Options := {
  opt_verbose : bool;
  opt_quiet : bool;
  opt_report : bool;
  largs : list string
}.

(** ** Effects *)

Inductive event :=
| EPrint (line : string)
| EImport (name : string)
| ELoad (name : string)
| ERun (verbosity : Z) (suite : TestSuite)
| ESend (url : string) (success : bool) (record : gmap string entry).

(** What the launcher calls but does not define. *)
Record World := {
  (** [ut.loadTestsFromName(name, None)] *)
  loadTestsFromName : string -> result TestSuite;
  (** [unittest.TextTestRunner(verbosity=verbosity).run(suite)] *)
  run : Z -> TestSuite -> result TestResult;
  (** [datetime.datetime.now()] *)
  now : Z;
  (** [__import__(name, fromlist=...)] *)
  import_ : string -> fromlist -> result PyModule;
  (** [getattr(platform, func)()] *)
  platform_call : string -> result pyval;
  (** [xmlrpclib.ServerProxy(url).report(success, record)] *)
  report_rpc : string -> bool -> gmap string entry -> result unit;
  (** [os.environ.keys()] *)
  environ_keys : list string;
  (** [__doc__], which is [None] when docstrings are stripped *)
  module_doc : option string;
  (** [OptionParser(usage)] with the three options, then
      [parser.parse_args()]: [-h] and an unknown option end in
      [SystemExit] *)
  parse_args : string -> result Options
}.

(** A computation: its outcome and the events it emitted. An exception
    stops the computation; the events emitted before it stay. *)
Definition M (A : Type) : Type := result A * list event.

Definition ret {A} (a : A) : M A := (Ok a, []).
Definition raise {A} (e : exn) : M A := (Raise e, []).
Definition emit (e : event) : M unit := (Ok tt, [e]).
Definition lift {A} (r : result A) : M A := (r, []).

Definition bind {A B} (m : M A) (f : A -> M B) : M B :=
  match m with
  | (Ok a, t) => let '(r, t') := f a in (r, t ++ t')
  | (Raise e, t) => (Raise e, t)
  end.

#[global] Instance M_ret : MRet M := @ret.
#[global] Instance M_bind : MBind M := fun A B f m => bind m f.

(** [try: body / except: handler] *)
Definition try_except {A} (body : M A) (handler : M A) : M A :=
  match body with
  | (Ok a, t) => (Ok a, t)
  | (Raise _, t) => let '(r, t') := handler in (r, t ++ t')
  end.

(** [try: body / except Exception, e: handler / else: orelse] *)
Definition try_except_Exception_else {A B}
    (body : M A) (handler : exn -> M B) (orelse : M B) : M B :=
  match body with
  | (Ok _, t) => let '(r, t') := orelse in (r, t ++ t')
  | (Raise e, t) =>
      if exn_is_Exception e
      then let '(r, t') := handler e in (r, t ++ t')
      else (Raise e, t)
  end.

(** [for x in l: s = body x s] *)
Fixpoint for_ {A S} (l : list A) (body : A -> S -> M S) (s : S) : M S :=
  match l with
  | [] => ret s
  | x :: l' => s' ← body x s; for_ l' body s'
  end.

Definition print (line : string) : M unit := emit (EPrint line).

(** ** Module constants *)

Definition DEFAULT_MODULES : list string :=
  ["core"; "gse2"; "mseed"; "sac"; "wav"; "signal"; "imaging";
   "xseed"; "seisan"; "sh"]%string.
Definition ALL_MODULES : list string :=
  DEFAULT_MODULES ++ ["fissures"; "arclink"; "seishub"]%string.
Definition DEPENDENCIES : list string :=
  ["numpy"; "scipy"; "matplotlib"; "lxml.etree"; "_omnipy"]%string.

(** ['obspy.%s.tests.suite' % d] *)
Definition suite_name (d : string) : string :=
  "obspy." +:+ d +:+ ".tests.suite".

(** ** [_getSuite] *)

(** Lines 66-75: the names to load. *)
Definition _getSuite_names (tests : list string) : list string :=
  if bool_decide (tests = [])
  then suite_name <$> DEFAULT_MODULES
  else
    foldl (fun names test =>
             let test := if bool_decide (test ∈ DEFAULT_MODULES)
                         then suite_name test else test in
             names ++ [test])
          [] tests.

(** Lines 78-86. *)
Definition _getSuite (w : World) (verbosity : Z) (tests : list string)
    : M TestSuite :=
  let names := _getSuite_names tests in
  suites ← for_ names (fun name suites =>
    try_except
      (emit (ELoad name);;
       s ← lift (loadTestsFromName w name);
       mret (suites ++ [s]))
      (if bool_decide (verbosity ≠ 0)
       then print ("Cannot import test suite for module " +:+ name);;
            mret suites
       else mret suites)) [];
  mret (suiteClass suites).

(** ** [_createReport] *)

(** [s.split(sep)] for a one-character separator. *)
Fixpoint split (sep : ascii) (s : string) : list string :=
  match s with
  | EmptyString => [EmptyString]
  | String c s' =>
      if decide (c = sep) then EmptyString :: split sep s'
      else match split sep s' with
           | [] => [String c EmptyString]
           | h :: t => String c h :: t
           end
  end.

(** [sep.join(l)] for a one-character separator. *)
Fixpoint join (sep : ascii) (l : list string) : string :=
  match l with
  | [] => EmptyString
  | x :: l' =>
      match l' with
      | [] => x
      | _ :: _ => x +:+ String sep (join sep l')
      end
  end.

(** [s.strip()]: white space is removed at both ends. *)
Definition is_space (c : ascii) : bool :=
  bool_decide (c ∈ [" "; "009"; "010"; "011"; "012"; "013"]%char).

Fixpoint lstrip (s : string) : string :=
  match s with
  | EmptyString => EmptyString
  | String c s' => if is_space c then lstrip s' else s
  end.

Definition strip (s : string) : string :=
  String.rev (lstrip (String.rev (lstrip s))).

(** [result[k1][k2] = v]: the inner dictionary is looked up first. *)
Definition setitem2 (result : gmap string entry) (k1 k2 : string) (v : pyval)
    : M (gmap string entry) :=
  match result !! k1 with
  | Some (Dict d) => ret (<[k1 := Dict (<[k2 := v]> d)]> result)
  | Some (Timestamp _) =>
      raise (TypeError "object does not support item assignment")
  | None => raise (KeyError k1)
  end.

(** [temp[0]] on a tuple. *)
Definition getitem0 (l : list pyval) : M pyval :=
  match l with
  | x :: _ => ret x
  | [] => raise (IndexError "tuple index out of range")
  end.

Definition PLATFORM_FUNCS : list string :=
  ["system"; "node"; "release"; "version"; "machine"; "processor";
   "python_version"; "python_implementation"; "python_compiler";
   "architecture"]%string.

Definition REPORT_URL : string := "http://localhost:8000/".

(** Lines 94-133: the record that is handed to the server. *)
Definition assemble_report (w : World) (ttr : TestResult)
    : M (gmap string entry) :=
  let result : gmap string entry := {[ "timestamp"%string := Timestamp (now w) ]} in
  (* get ObsPy module versions *)
  let result := <[ "obspy"%string := Dict ∅ ]> result in
  result ← for_ ALL_MODULES (fun module result =>
    try_except
      (mod_ ← lift (import_ w ("obspy." +:+ module) (FromStr "obspy"));
       v ← lift (mod_version mod_);
       setitem2 result "obspy" module v)
      (setitem2 result "obspy" module (VStr ""))) result;
  (* get dependencies *)
  let result := <[ "dependencies"%string := Dict ∅ ]> result in
  result ← for_ DEPENDENCIES (fun module result =>
    let temp := split "."%char module in
    try_except
      (mod_ ← lift (import_ w module (FromList (drop 1%nat temp)));
       if bool_decide (module = "_omnipy"%string)
       then v ← lift (mod_coreVersion mod_);
            setitem2 result "dependencies" module v
       else v ← lift (mod_version mod_);
            setitem2 result "dependencies" module v)
      (setitem2 result "dependencies" module (VStr ""))) result;
  (* get system / environment settings *)
  let result := <[ "platform"%string := Dict ∅ ]> result in
  result ← for_ PLATFORM_FUNCS (fun func result =>
    try_except
      (temp ← lift (platform_call w func);
       temp ← match temp with
              | VTuple l => getitem0 l
              | _ => ret temp
              end;
       setitem2 result "platform" func temp)
      (setitem2 result "platform" func (VStr ""))) result;
  (* test results *)
  let result := <[ "errors"%string := Dict ∅ ]> result in
  result ← for_ (errors ttr) (fun item result =>
    let '(method, text) := item in
    setitem2 result "errors" (str method) (VStr text)) result;
  let result := <[ "failures"%string := Dict ∅ ]> result in
  result ← for_ (failures ttr) (fun item result =>
    let '(method, text) := item in
    setitem2 result "errors" (str method) (VStr text)) result;
  mret result.

(** Lines 91-93, [assemble_report], and lines 134-143: the delivery. *)
Definition _createReport (w : World) (ttr : TestResult) : M unit :=
  (* import additional libraries here to speed up normal tests *)
  emit (EImport "xmlrpclib");;
  emit (EImport "datetime");;
  emit (EImport "platform");;
  result ← assemble_report w ttr;
  print "";;
  (* send result to report server *)
  try_except_Exception_else
    (emit (ESend REPORT_URL (wasSuccessful ttr) result);;
     lift (report_rpc w REPORT_URL (wasSuccessful ttr) result))
    (fun e =>
       print "Error: Could not sent a test report to http://tests.obspy.org.";;
       print (exn_str e))
    (print "Test report has been sent to http://tests.obspy.org.").

(** ** [runTests] and [main] *)

Definition runTests (w : World) (verbosity : Z) (tests : list string)
    (report : bool) : M unit :=
  suite ← _getSuite w verbosity tests;
  ttr ← (emit (ERun verbosity suite);; lift (run w verbosity suite));
  if report then _createReport w ttr else mret tt.

(** Lines 169-181: the usage text and the parsed command line. *)
Definition main_parse (w : World) : M Options :=
  doc ← match module_doc w with
        | Some doc => ret doc
        | None => raise (NoneType_AttributeError "split")
        end;
  let usage :=
    "USAGE: %prog [options] modules"
    +:+ String "010" (String "010" (join "010" (drop 3%nat (split "010" doc)))) in
  lift (parse_args w (strip usage)).

Definition main (w : World) : M unit :=
  options ← main_parse w;
  (* set correct verbosity level *)
  let verbosity :=
    if opt_verbose options then 2
    else if opt_quiet options then 0
    else 1 in
  (* check for send report option or environmental settings *)
  let report :=
    if opt_report options
       || bool_decide ("OBSPY_REPORT_TEST"%string ∈ environ_keys w)
    then true else false in
  runTests w verbosity (largs options) report.

(** The status the process exits with: 0 when [main] returns, and the
    exit status of the exception that escapes it otherwise. *)
Definition exit_status {A} (m : M A) : Z :=
  match m.1 with
  | Ok _ => 0
  | Raise e => exn_exit_status e
  end.

(** ** Reading a trace *)

Definition loads (t : list event) : list string :=
  omap (fun e => match e with ELoad n => Some n | _ => None end) t.

Definition sends (t : list event) : list (string * bool * gmap string entry) :=
  omap (fun e => match e with ESend u b r => Some (u, b, r) | _ => None end) t.

Definition runs (t : list event) : list (Z * TestSuite) :=
  omap (fun e => match e with ERun v s => Some (v, s) | _ => None end) t.

Definition prints (t : list event) : list string :=
  omap (fun e => match e with EPrint l => Some l | _ => None end) t.

Definition imports (t : list event) : list string :=
  omap (fun e => match e with EImport n => Some n | _ => None end) t.

(** ** Closed forms, sample data and vocabulary of the properties *)

(** What one reference stands for: a shortcut is expanded, anything else
    is taken as it is. *)
Definition resolve (test : string) : string :=
  if bool_decide (test ∈ DEFAULT_MODULES) then suite_name test else test.

(** What loading one name leaves in the trace. *)
Definition load_events (w : World) (verbosity : Z) (name : string)
    : list event :=
  ELoad name ::
  match loadTestsFromName w name with
  | Ok _ => []
  | Raise _ =>
      if bool_decide (verbosity ≠ 0)
      then [EPrint ("Cannot import test suite for module " +:+ name)]
      else []
  end.

(** What a lookup that may fail leaves in the record. *)
Definition recorded (r : result pyval) : pyval :=
  match r with
  | Ok v => v
  | Raise _ => VStr ""
  end.

(** The three kinds of metadata lookups, as the bodies of the three
    [try] blocks perform them. *)
Definition obspy_lookup (w : World) (module : string) : result pyval :=
  match import_ w ("obspy." +:+ module) (FromStr "obspy") with
  | Ok m => mod_version m
  | Raise e => Raise e
  end.

Definition dependency_lookup (w : World) (module : string) : result pyval :=
  match import_ w module (FromList (drop 1%nat (split "."%char module))) with
  | Ok m =>
      if bool_decide (module = "_omnipy"%string)
      then mod_coreVersion m else mod_version m
  | Raise e => Raise e
  end.

Definition platform_lookup (w : World) (func : string) : result pyval :=
  match platform_call w func with
  | Ok (VTuple (x :: _)) => Ok x
  | Ok (VTuple []) => Raise (IndexError "tuple index out of range")
  | Ok v => Ok v
  | Raise e => Raise e
  end.

(** A dictionary after the assignments [d[key x] = val x], for [x] in [l]
    from left to right. *)
Definition assign_all {A} (key : A -> string) (val : A -> pyval)
    (l : list A) (d : gmap string pyval) : gmap string pyval :=
  foldl (fun d x => <[key x := val x]> d) d l.

(** The text last assigned under identifier [k] by a list of outcomes. *)
Fixpoint last_text (k : string) (l : list (TestCase * string))
    : option string :=
  match l with
  | [] => None
  | (method, text) :: l' =>
      match last_text k l' with
      | Some t => Some t
      | None => if bool_decide (str method = k) then Some text else None
      end
  end.

Definition outcome_key (p : TestCase * string) : string := str p.1.
Definition outcome_val (p : TestCase * string) : pyval := VStr p.2.

Definition obspy_dict (w : World) : gmap string pyval :=
  assign_all id (fun m => recorded (obspy_lookup w m)) ALL_MODULES ∅.
Definition dependencies_dict (w : World) : gmap string pyval :=
  assign_all id (fun m => recorded (dependency_lookup w m)) DEPENDENCIES ∅.
Definition platform_dict (w : World) : gmap string pyval :=
  assign_all id (fun f => recorded (platform_lookup w f)) PLATFORM_FUNCS ∅.
Definition errors_dict (ttr : TestResult) : gmap string pyval :=
  assign_all outcome_key outcome_val (failures ttr)
    (assign_all outcome_key outcome_val (errors ttr) ∅).

(** The record in closed form. *)
Definition report_of (w : World) (ttr : TestResult) : gmap string entry :=
  <[ "errors"%string := Dict (errors_dict ttr) ]>
  (<[ "failures"%string := Dict ∅ ]>
  (<[ "platform"%string := Dict (platform_dict w) ]>
  (<[ "dependencies"%string := Dict (dependencies_dict w) ]>
  (<[ "obspy"%string := Dict (obspy_dict w) ]>
  {[ "timestamp"%string := Timestamp (now w) ]})))).

Definition MSG_FAILED : string :=
  "Error: Could not sent a test report to http://tests.obspy.org.".
Definition MSG_SENT : string :=
  "Test report has been sent to http://tests.obspy.org.".

(** ** A sample installation

    Only [obspy.core] and [obspy.mseed] are installed, one test errors and
    one fails, the report server is down, and the environment asks for a
    report. *)

Definition test_init : TestCase :=
  {| tc_id := 1; tc_str := "test_init (obspy.core.tests.test_stats.StatsTestCase)" |}.
Definition test_read : TestCase :=
  {| tc_id := 2; tc_str := "test_read (obspy.mseed.tests.test_core.CoreTestCase)" |}.

Definition ImportError : exn := Exn true "No module named tests" 1.
Definition AttributeError : exn :=
  Exn true "'module' object has no attribute" 1.
Definition socket_error : exn :=
  Exn true "[Errno 111] Connection refused" 1.

Definition sample_result : TestResult :=
  {| errors := [(test_init, "Traceback: KeyError")];
     failures := [(test_read, "Traceback: AssertionError")];
     wasSuccessful := false |}.

Definition sample_world : World :=
  {| loadTestsFromName name :=
       if bool_decide (name = "obspy.core.tests.suite"%string)
       then Ok (Suite [Case test_init])
       else if bool_decide (name = "obspy.mseed.tests.suite"%string)
       then Ok (Suite [Case test_read])
       else Raise ImportError;
     run _ _ := Ok sample_result;
     now := 1262304000;
     import_ name _ :=
       if bool_decide (name = "obspy.core"%string)
       then Ok {| mod_version := Ok (VStr "0.2.0");
                  mod_coreVersion := Raise AttributeError |}
       else if bool_decide (name = "lxml.etree"%string)
       then Ok {| mod_version := Ok (VStr "2.2.2");
                  mod_coreVersion := Raise AttributeError |}
       else Raise ImportError;
     platform_call func :=
       if bool_decide (func = "system"%string) then Ok (VStr "Linux")
       else if bool_decide (func = "architecture"%string)
       then Ok (VTuple [VStr "64bit"; VStr "ELF"])
       else Raise AttributeError;
     report_rpc _ _ _ := Raise socket_error;
     environ_keys := ["PATH"; "OBSPY_REPORT_TEST"]%string;
     module_doc := Some "ObsPy Test Suite Module."%string;
     parse_args _ :=
       Ok {| opt_verbose := false; opt_quiet := false;
             opt_report := false;
             largs := ["mseed"; "nosuch"; "obspy.core.tests.suite"]%string |}
  |}.

(** The same world with another report server. *)
Definition with_report_rpc (w : World)
    (rpc : string -> bool -> gmap string entry -> result unit) : World :=
  {| loadTestsFromName := loadTestsFromName w;
     run := run w;
     now := now w;
     import_ := import_ w;
     platform_call := platform_call w;
     report_rpc := rpc;
     environ_keys := environ_keys w;
     module_doc := module_doc w;
     parse_args := parse_args w |}.

(** The metadata fields of the report. *)
Inductive field :=
| ObspyVersion (module : string)
| DependencyVersion (module : string)
| PlatformAttribute (func : string).

(** The inner dictionary a field lives in, and its key there. *)
Definition field_dict (f : field) : string :=
  match f with
  | ObspyVersion _ => "obspy"
  | DependencyVersion _ => "dependencies"
  | PlatformAttribute _ => "platform"
  end.

Definition field_key (f : field) : string :=
  match f with
  | ObspyVersion module | DependencyVersion module => module
  | PlatformAttribute func => func
  end.

(** The fields the assembler goes through. *)
Definition field_listed (f : field) : Prop :=
  match f with
  | ObspyVersion module => module ∈ ALL_MODULES
  | DependencyVersion module => module ∈ DEPENDENCIES
  | PlatformAttribute func => func ∈ PLATFORM_FUNCS
  end.

Definition field_lookup (w : World) (f : field) : result pyval :=
  match f with
  | ObspyVersion module => obspy_lookup w module
  | DependencyVersion module => dependency_lookup w module
  | PlatformAttribute func => platform_lookup w func
  end.

(** A run in which one test fails and none errors. *)
Definition one_failure : TestResult :=
  {| errors := [];
     failures := [(test_read, "Traceback: AssertionError")];
     wasSuccessful := false |}.

(** The verbosity [main] settles on. *)
Definition main_verbosity (options : Options) : Z :=
  if opt_verbose options then 2
  else if opt_quiet options then 0
  else 1.

(** Whether [main] asks for a report. *)
Definition main_report (w : World) (options : Options) : bool :=
  opt_report options
  || bool_decide ("OBSPY_REPORT_TEST"%string ∈ environ_keys w).

(** ** Vocabulary of the further properties *)

(** The diagnostic [_getSuite] prints for a name that does not load. *)
Definition import_message (name : string) : string :=
  "Cannot import test suite for module " +:+ name.

(** An interrupt: a throwable outside [Exception]. *)
Definition KeyboardInterrupt : exn := Exn false "" 1.

(** The same world with another test runner. *)
Definition with_run (w : World)
    (runner : Z -> TestSuite -> result TestResult) : World :=
  {| loadTestsFromName := loadTestsFromName w;
     run := runner;
     now := now w;
     import_ := import_ w;
     platform_call := platform_call w;
     report_rpc := report_rpc w;
     environ_keys := environ_keys w;
     module_doc := module_doc w;
     parse_args := parse_args w |}.



(** The same world with another import system. *)
Definition with_import (w : World)
    (imp : string -> fromlist -> result PyModule) : World :=
  {| loadTestsFromName := loadTestsFromName w;
     run := run w;
     now := now w;
     import_ := imp;
     platform_call := platform_call w;
     report_rpc := report_rpc w;
     environ_keys := environ_keys w;
     module_doc := module_doc w;
     parse_args := parse_args w |}.

(** A module that has [__version__] but no [coreVersion]. *)
Definition versioned_module : PyModule :=
  {| mod_version := Ok (VStr "1.0");
     mod_coreVersion := Raise AttributeError |}.

(** * Properties *)

(** ** Laws of computations *)

Lemma bind_ret_l {A B} (a : A) (f : A -> M B) : bind (ret a) f = f a.
Proof. unfold bind, ret. by destruct (f a). Qed.

Lemma bind_raise_l {A B} (e : exn) (f : A -> M B) :
  bind (raise e) f = raise e.
Proof. done. Qed.

Lemma bind_ok {A B} (a : A) (t : list event) (f : A -> M B) :
  bind (Ok a, t) f = ((f a).1, t ++ (f a).2).
Proof. unfold bind. by destruct (f a). Qed.

Lemma try_except_ret {A} (a : A) (handler : M A) :
  try_except (ret a) handler = ret a.
Proof. done. Qed.

Lemma try_except_raise {A} (e : exn) (handler : M A) :
  try_except (raise e) handler = handler.
Proof. unfold try_except, raise. by destruct handler. Qed.

(** ** The suite resolver *)

Lemma names_loop (tests acc : list string) :
  foldl (fun names test =>
           let test := if bool_decide (test ∈ DEFAULT_MODULES)
                       then suite_name test else test in
           names ++ [test]) acc tests
  = acc ++ (resolve <$> tests).
Proof.
  revert acc. induction tests as [|t tests IH]; intros acc; simpl.
  - by rewrite app_nil_r.
  - rewrite IH. by rewrite <- app_assoc.
Qed.

Lemma getSuite_names_nonempty (tests : list string) :
  tests ≠ [] -> _getSuite_names tests = resolve <$> tests.
Proof.
  intros Hne. unfold _getSuite_names.
  rewrite bool_decide_eq_false_2 by done. apply names_loop.
Qed.

Lemma loads_app (t1 t2 : list event) : loads (t1 ++ t2) = loads t1 ++ loads t2.
Proof. apply omap_app. Qed.

Lemma loads_load_events w v name : loads (load_events w v name) = [name].
Proof.
  unfold load_events. destruct (loadTestsFromName w name); [done|].
  by case_bool_decide.
Qed.

Lemma load_body (w : World) (verbosity : Z) (name : string)
    (suites : list TestSuite) :
  try_except
    (emit (ELoad name);;
     s ← lift (loadTestsFromName w name);
     mret (suites ++ [s]))
    (if bool_decide (verbosity ≠ 0)
     then print ("Cannot import test suite for module " +:+ name);;
          mret suites
     else mret suites)
  = (Ok (suites ++ option_list (ok_of (loadTestsFromName w name))),
     load_events w verbosity name).
Proof.
  unfold load_events.
  unfold mbind, M_bind, lift, emit, print. rewrite bind_ok.
  destruct (loadTestsFromName w name) as [s|e]; cbn.
  - done.
  - rewrite app_nil_r. by case_bool_decide.
Qed.

Lemma load_loop (w : World) (verbosity : Z) (names : list string)
    (suites : list TestSuite) :
  for_ names (fun name suites =>
    try_except
      (emit (ELoad name);;
       s ← lift (loadTestsFromName w name);
       mret (suites ++ [s]))
      (if bool_decide (verbosity ≠ 0)
       then print ("Cannot import test suite for module " +:+ name);;
            mret suites
       else mret suites)) suites
  = (Ok (suites ++ omap (fun n => ok_of (loadTestsFromName w n)) names),
     names ≫= load_events w verbosity).
Proof.
  revert suites. induction names as [|name names IH]; intros suites.
  - simpl. by rewrite app_nil_r.
  - cbn [for_]. unfold mbind at 1, M_bind.
    rewrite load_body, bind_ok, IH. cbn [fst snd omap list_omap].
    rewrite <- app_assoc. f_equal. f_equal. f_equal.
    by destruct (loadTestsFromName w name).
Qed.

Lemma getSuite_spec (w : World) (verbosity : Z) (tests : list string) :
  _getSuite w verbosity tests
  = (Ok (suiteClass (omap (fun n => ok_of (loadTestsFromName w n))
                          (_getSuite_names tests))),
     _getSuite_names tests ≫= load_events w verbosity).
Proof.
  unfold _getSuite. rewrite load_loop. cbn. by rewrite app_nil_r.
Qed.

Lemma loads_bind_load_events w v (names : list string) :
  loads (names ≫= load_events w v) = names.
Proof.
  induction names as [|n names IH]; [done|].
  cbn [mbind list_bind]. rewrite loads_app, loads_load_events, IH. done.
Qed.

(** ** The report assembler *)

Lemma setitem2_ok (result : gmap string entry) (k1 k2 : string) (v : pyval)
    (d : gmap string pyval) :
  result !! k1 = Some (Dict d) ->
  setitem2 result k1 k2 v = ret (<[k1 := Dict (<[k2 := v]> d)]> result).
Proof. intros H. unfold setitem2. by rewrite H. Qed.

(** A loop whose body comes down to one assignment into the inner
    dictionary [k1] performs all of them and raises nothing. *)
Lemma for_assign {A} (k1 : string) (key : A -> string) (val : A -> pyval)
    (body : A -> gmap string entry -> M (gmap string entry)) (l : list A) :
  (forall x result d,
     result !! k1 = Some (Dict d) ->
     body x result = ret (<[k1 := Dict (<[key x := val x]> d)]> result)) ->
  forall result d,
    result !! k1 = Some (Dict d) ->
    for_ l body result = ret (<[k1 := Dict (assign_all key val l d)]> result).
Proof.
  intros Hbody. induction l as [|x l IH]; intros result d Hd.
  - cbn. by rewrite insert_id.
  - cbn [for_]. unfold mbind, M_bind.
    rewrite (Hbody _ _ _ Hd), bind_ret_l.
    rewrite (IH _ (<[key x := val x]> d)) by apply lookup_insert_eq.
    by rewrite insert_insert_eq.
Qed.

Lemma obspy_body (w : World) (module : string) (result : gmap string entry)
    (d : gmap string pyval) :
  result !! "obspy"%string = Some (Dict d) ->
  try_except
    (mod_ ← lift (import_ w ("obspy." +:+ module) (FromStr "obspy"));
     v ← lift (mod_version mod_);
     setitem2 result "obspy" module v)
    (setitem2 result "obspy" module (VStr ""))
  = ret (<["obspy"%string :=
            Dict (<[id module := recorded (obspy_lookup w module)]> d)]> result).
Proof.
  intros Hd. unfold obspy_lookup, mbind, M_bind, lift.
  destruct (import_ w _ _) as [m|e]; cbn.
  - destruct (mod_version m) as [v|e]; cbn.
    + by rewrite (setitem2_ok _ _ _ _ _ Hd).
    + by rewrite (setitem2_ok _ _ _ _ _ Hd).
  - by rewrite (setitem2_ok _ _ _ _ _ Hd).
Qed.

Lemma dependencies_body (w : World) (module : string)
    (result : gmap string entry) (d : gmap string pyval) :
  result !! "dependencies"%string = Some (Dict d) ->
  (let temp := split "."%char module in
   try_except
     (mod_ ← lift (import_ w module (FromList (drop 1%nat temp)));
      if bool_decide (module = "_omnipy"%string)
      then v ← lift (mod_coreVersion mod_);
           setitem2 result "dependencies" module v
      else v ← lift (mod_version mod_);
           setitem2 result "dependencies" module v)
     (setitem2 result "dependencies" module (VStr "")))
  = ret (<["dependencies"%string :=
            Dict (<[id module := recorded (dependency_lookup w module)]> d)]>
           result).
Proof.
  intros Hd. unfold dependency_lookup, mbind, M_bind, lift. cbv zeta.
  destruct (import_ w _ _) as [m|e]; cbn.
  - case_bool_decide.
    + destruct (mod_coreVersion m) as [v|e]; cbn;
        by rewrite (setitem2_ok _ _ _ _ _ Hd).
    + destruct (mod_version m) as [v|e]; cbn;
        by rewrite (setitem2_ok _ _ _ _ _ Hd).
  - by rewrite (setitem2_ok _ _ _ _ _ Hd).
Qed.

Lemma platform_body (w : World) (func : string) (result : gmap string entry)
    (d : gmap string pyval) :
  result !! "platform"%string = Some (Dict d) ->
  try_except
    (temp ← lift (platform_call w func);
     temp ← match temp with
            | VTuple l => getitem0 l
            | _ => ret temp
            end;
     setitem2 result "platform" func temp)
    (setitem2 result "platform" func (VStr ""))
  = ret (<["platform"%string :=
            Dict (<[id func := recorded (platform_lookup w func)]> d)]> result).
Proof.
  intros Hd. unfold platform_lookup, mbind, M_bind, lift.
  destruct (platform_call w func) as [[s|n|[|x l]]|e]; cbn;
    by rewrite (setitem2_ok _ _ _ _ _ Hd).
Qed.

Lemma outcome_body (p : TestCase * string) (result : gmap string entry)
    (d : gmap string pyval) :
  result !! "errors"%string = Some (Dict d) ->
  (let '(method, text) := p in
   setitem2 result "errors" (str method) (VStr text))
  = ret (<["errors"%string :=
            Dict (<[outcome_key p := outcome_val p]> d)]> result).
Proof. intros Hd. destruct p as [method text]. by apply setitem2_ok. Qed.

Lemma mbind_ret_l {A B} (a : A) (f : A -> M B) : (ret a ≫= f) = f a.
Proof. apply bind_ret_l. Qed.

(** Report assembly never raises, emits nothing, and produces the record
    in closed form. *)
Lemma assemble_report_spec (w : World) (ttr : TestResult) :
  assemble_report w ttr = ret (report_of w ttr).
Proof.
  unfold assemble_report. cbv zeta.
  rewrite (for_assign "obspy" id (fun m => recorded (obspy_lookup w m))
             _ ALL_MODULES (obspy_body w) _ ∅)
    by apply lookup_insert_eq.
  rewrite mbind_ret_l, insert_insert_eq.
  rewrite (for_assign "dependencies" id
             (fun m => recorded (dependency_lookup w m))
             _ DEPENDENCIES (dependencies_body w) _ ∅)
    by apply lookup_insert_eq.
  rewrite mbind_ret_l, insert_insert_eq.
  rewrite (for_assign "platform" id (fun f => recorded (platform_lookup w f))
             _ PLATFORM_FUNCS (platform_body w) _ ∅)
    by apply lookup_insert_eq.
  rewrite mbind_ret_l, insert_insert_eq.
  rewrite (for_assign "errors" outcome_key outcome_val
             _ (errors ttr) outcome_body _ ∅)
    by apply lookup_insert_eq.
  rewrite mbind_ret_l, insert_insert_eq.
  rewrite (for_assign "errors" outcome_key outcome_val
             _ (failures ttr) outcome_body _
             (assign_all outcome_key outcome_val (errors ttr) ∅))
    by (rewrite lookup_insert_ne by done; apply lookup_insert_eq).
  rewrite mbind_ret_l.
  rewrite (insert_insert_ne _ "failures"%string "errors"%string) by done.
  rewrite insert_insert_eq.
  done.
Qed.

Lemma assign_all_lookup_id (val : string -> pyval) (l : list string)
    (d : gmap string pyval) (k : string) :
  assign_all id val l d !! k
  = if bool_decide (k ∈ l) then Some (val k) else d !! k.
Proof.
  unfold assign_all. revert d. induction l as [|x l IH]; intros d; cbn.
  - done.
  - rewrite IH. unfold id. case_bool_decide as Hl.
    + rewrite bool_decide_eq_true_2; [done | by right].
    + destruct (decide (x = k)) as [->|Hne].
      * rewrite lookup_insert_eq.
        rewrite bool_decide_eq_true_2; [done | by left].
      * rewrite lookup_insert_ne by done.
        rewrite bool_decide_eq_false_2; [done|].
        intros Hin. apply elem_of_cons in Hin as [->|?]; done.
Qed.

Lemma assign_all_dom_id (val : string -> pyval) (l : list string) :
  dom (assign_all id val l ∅) = list_to_set l.
Proof.
  apply set_eq. intros k. rewrite elem_of_dom, assign_all_lookup_id.
  rewrite elem_of_list_to_set. case_bool_decide as Hl.
  - split; [done | by eexists].
  - rewrite lookup_empty. split; [by intros [? ?] | done].
Qed.

Lemma assign_all_outcomes_lookup (l : list (TestCase * string))
    (d : gmap string pyval) (k : string) :
  assign_all outcome_key outcome_val l d !! k
  = match last_text k l with
    | Some t => Some (VStr t)
    | None => d !! k
    end.
Proof.
  unfold assign_all. revert d. induction l as [|[method text] l IH];
    intros d; cbn.
  - done.
  - rewrite IH. destruct (last_text k l) as [t|]; [done|].
    unfold outcome_key, outcome_val; cbn. case_bool_decide as Hk.
    + by rewrite Hk, lookup_insert_eq.
    + by rewrite lookup_insert_ne.
Qed.

Lemma errors_dict_lookup (ttr : TestResult) (k : string) :
  errors_dict ttr !! k
  = match last_text k (failures ttr) with
    | Some t => Some (VStr t)
    | None => VStr <$> last_text k (errors ttr)
    end.
Proof.
  unfold errors_dict. rewrite !assign_all_outcomes_lookup.
  destruct (last_text k (failures ttr)); [done|].
  by destruct (last_text k (errors ttr)).
Qed.

Lemma report_of_dom (w : World) (ttr : TestResult) :
  dom (report_of w ttr)
  = {[ "timestamp"; "obspy"; "dependencies"; "platform"; "errors";
       "failures" ]}%string.
Proof.
  unfold report_of. rewrite !dom_insert_L, dom_singleton_L. set_solver.
Qed.

(** ** Delivery, [runTests] and [main] in closed form *)

Lemma createReport_spec (w : World) (ttr : TestResult) :
  _createReport w ttr
  = let head := [EImport "xmlrpclib"; EImport "datetime"; EImport "platform";
                 EPrint "";
                 ESend REPORT_URL (wasSuccessful ttr) (report_of w ttr)] in
    match report_rpc w REPORT_URL (wasSuccessful ttr) (report_of w ttr) with
    | Ok _ => (Ok tt, head ++ [EPrint MSG_SENT])
    | Raise e =>
        if exn_is_Exception e
        then (Ok tt, head ++ [EPrint MSG_FAILED; EPrint (exn_str e)])
        else (Raise e, head)
    end.
Proof.
  unfold _createReport, mbind, M_bind, emit. rewrite !bind_ok.
  rewrite assemble_report_spec, bind_ret_l. cbv zeta.
  destruct (report_rpc w _ _ _) as [[]|e]; cbn; [done|].
  by destruct (exn_is_Exception e).
Qed.

Lemma runTests_spec (w : World) (verbosity : Z) (tests : list string)
    (report : bool) :
  runTests w verbosity tests report
  = let suite := suiteClass (omap (fun n => ok_of (loadTestsFromName w n))
                                  (_getSuite_names tests)) in
    let t0 := (_getSuite_names tests ≫= load_events w verbosity)
              ++ [ERun verbosity suite] in
    match run w verbosity suite with
    | Ok ttr =>
        if report
        then ((_createReport w ttr).1, t0 ++ (_createReport w ttr).2)
        else (Ok tt, t0)
    | Raise e => (Raise e, t0)
    end.
Proof.
  unfold runTests. rewrite getSuite_spec. unfold mbind, M_bind.
  rewrite bind_ok. cbv zeta.
  generalize (_createReport w) as cr. intros cr.
  destruct (run w verbosity _) as [ttr|e]; cbn.
  - destruct report.
    + destruct (cr ttr) as [r t]; cbn. by rewrite <- app_assoc.
    + done.
  - done.
Qed.

(** ** The resolver's claims *)

(** C2. A reference that fails to load does not keep any other reference
    from being loaded: every resolved name is tried, in order, and the
    resolver returns the suites of exactly those that loaded, in the order
    of their references. *)
Theorem getSuite_partial_failure_isolation (w : World) (verbosity : Z)
    (tests : list string) :
  loads (_getSuite w verbosity tests).2 = _getSuite_names tests /\
  (_getSuite w verbosity tests).1
  = Ok (suiteClass (omap (fun name => ok_of (loadTestsFromName w name))
                         (_getSuite_names tests))).
Proof.
  rewrite getSuite_spec. cbn [fst snd]. split; [|done].
  apply loads_bind_load_events.
Qed.

(** C3. With no references given, the resolver tries to load exactly the
    names [obspy.<module>.tests.suite], one per default module and in the
    order in which [DEFAULT_MODULES] lists them. *)
Theorem getSuite_empty_expands_defaults (w : World) (verbosity : Z) :
  loads (_getSuite w verbosity []).2 = suite_name <$> DEFAULT_MODULES /\
  loads (_getSuite w verbosity []).2
  = ["obspy.core.tests.suite"; "obspy.gse2.tests.suite";
     "obspy.mseed.tests.suite"; "obspy.sac.tests.suite";
     "obspy.wav.tests.suite"; "obspy.signal.tests.suite";
     "obspy.imaging.tests.suite"; "obspy.xseed.tests.suite";
     "obspy.seisan.tests.suite"; "obspy.sh.tests.suite"]%string.
Proof.
  rewrite getSuite_spec. cbn [snd]. rewrite loads_bind_load_events.
  split; reflexivity.
Qed.

(** C4. With references given, the names the resolver tries to load are
    the references in the order given, a reference that is one of
    [DEFAULT_MODULES] replaced by [obspy.<name>.tests.suite] and any other
    left as it is. *)
Theorem getSuite_resolves_shortcuts (w : World) (verbosity : Z)
    (tests : list string) :
  tests ≠ [] ->
  _getSuite_names tests
  = (fun test => if bool_decide (test ∈ DEFAULT_MODULES)
                 then ("obspy." +:+ test +:+ ".tests.suite")%string
                 else test) <$> tests /\
  loads (_getSuite w verbosity tests).2 = _getSuite_names tests.
Proof.
  intros Hne. split.
  - by apply getSuite_names_nonempty.
  - rewrite getSuite_spec. apply loads_bind_load_events.
Qed.

Lemma getSuite_resolves_shortcuts_witness :
  _getSuite_names ["mseed"; "nosuch"; "obspy.core.tests.suite"]%string
  = ["obspy.mseed.tests.suite"; "nosuch"; "obspy.core.tests.suite"]%string /\
  loads (_getSuite sample_world 1
           ["mseed"; "nosuch"; "obspy.core.tests.suite"]%string).2
  = ["obspy.mseed.tests.suite"; "nosuch"; "obspy.core.tests.suite"]%string.
Proof.
  destruct (getSuite_resolves_shortcuts sample_world 1
              ["mseed"; "nosuch"; "obspy.core.tests.suite"]%string)
    as [Hn Hl]; [done|].
  split; [exact Hn | exact Hl].
Defined.

(** ** The report assembler's claims *)

Lemma createReport_sends (w : World) (ttr : TestResult) :
  sends (_createReport w ttr).2
  = [(REPORT_URL, wasSuccessful ttr, report_of w ttr)].
Proof.
  rewrite createReport_spec. cbv zeta.
  destruct (report_rpc w _ _ _) as [[]|e]; [done|].
  by destruct (exn_is_Exception e).
Qed.

Lemma field_recorded (w : World) (ttr : TestResult) (f : field) :
  field_listed f ->
  exists d, report_of w ttr !! field_dict f = Some (Dict d) /\
            d !! field_key f = Some (recorded (field_lookup w f)).
Proof.
  intros Hf. destruct f as [module|module|func]; cbn in *.
  - exists (obspy_dict w). split; [done|].
    unfold obspy_dict. rewrite assign_all_lookup_id.
    by rewrite bool_decide_eq_true_2.
  - exists (dependencies_dict w). split; [done|].
    unfold dependencies_dict. rewrite assign_all_lookup_id.
    by rewrite bool_decide_eq_true_2.
  - exists (platform_dict w). split; [done|].
    unfold platform_dict. rewrite assign_all_lookup_id.
    by rewrite bool_decide_eq_true_2.
Qed.

(** C5. Report assembly raises nothing, and every metadata field it goes
    through (a module of [ALL_MODULES], a dependency of [DEPENDENCIES], a
    platform query) has its key in its dictionary: with the value looked
    up, and with the empty string when the lookup failed. *)
Theorem failed_lookup_recorded_as_empty_string (w : World)
    (ttr : TestResult) (f : field) :
  field_listed f ->
  exists r d,
    assemble_report w ttr = (Ok r, []) /\
    r !! field_dict f = Some (Dict d) /\
    d !! field_key f = Some (recorded (field_lookup w f)) /\
    (forall e, field_lookup w f = Raise e ->
               d !! field_key f = Some (VStr "")).
Proof.
  intros Hf. destruct (field_recorded w ttr f Hf) as (d & Hd & Hk).
  exists (report_of w ttr), d. split; [apply assemble_report_spec|].
  split; [done|]. split; [done|].
  intros e He. by rewrite Hk, He.
Qed.

Lemma failed_lookup_recorded_as_empty_string_witness :
  field_lookup sample_world (DependencyVersion "_omnipy")
  = Raise ImportError /\
  exists r d,
    assemble_report sample_world sample_result = (Ok r, []) /\
    r !! "dependencies"%string = Some (Dict d) /\
    d !! "_omnipy"%string = Some (VStr "").
Proof.
  split; [reflexivity|].
  destruct (failed_lookup_recorded_as_empty_string sample_world sample_result
              (DependencyVersion "_omnipy"))
    as (r & d & Hr & Hd & _ & Hk).
  - apply (bool_decide_unpack _). exact I.
  - exists r, d. split; [exact Hr|]. split; [exact Hd|].
    apply (Hk ImportError). reflexivity.
Defined.

(** C7. Whatever the lookups do, the assembled record, which is the one
    handed to the server, has exactly six top-level keys: the timestamp,
    the three metadata dictionaries and the two outcome dictionaries. *)
Theorem report_has_exactly_six_keys (w : World) (ttr : TestResult) :
  exists r,
    assemble_report w ttr = (Ok r, []) /\
    sends (_createReport w ttr).2 = [(REPORT_URL, wasSuccessful ttr, r)] /\
    dom r = {[ "timestamp"; "obspy"; "dependencies"; "platform"; "errors";
               "failures" ]}%string /\
    r !! "timestamp"%string = Some (Timestamp (now w)) /\
    (exists d, r !! "obspy"%string = Some (Dict d)) /\
    (exists d, r !! "dependencies"%string = Some (Dict d)) /\
    (exists d, r !! "platform"%string = Some (Dict d)) /\
    (exists d, r !! "errors"%string = Some (Dict d)) /\
    (exists d, r !! "failures"%string = Some (Dict d)).
Proof.
  exists (report_of w ttr).
  split; [apply assemble_report_spec|].
  split; [apply createReport_sends|].
  split; [apply report_of_dom|].
  split; [done|].
  repeat split; by eexists.
Qed.

(** C8. For each of the ten platform queries the platform dictionary
    holds, under the query's name, the query's result; the first component
    when the result is a tuple; and the empty string when the query fails
    (or the tuple has no component to take). The dictionary has no other
    keys. *)
Theorem platform_attribute_recorded (w : World) (ttr : TestResult)
    (func : string) :
  func ∈ ["system"; "node"; "release"; "version"; "machine"; "processor";
          "python_version"; "python_implementation"; "python_compiler";
          "architecture"]%string ->
  exists r d,
    assemble_report w ttr = (Ok r, []) /\
    r !! "platform"%string = Some (Dict d) /\
    dom d = list_to_set PLATFORM_FUNCS /\
    d !! func = Some match platform_call w func with
                     | Ok (VTuple (x :: _)) => x
                     | Ok (VTuple []) => VStr ""
                     | Ok v => v
                     | Raise _ => VStr ""
                     end.
Proof.
  intros Hf. exists (report_of w ttr), (platform_dict w).
  split; [apply assemble_report_spec|]. split; [done|].
  split; [apply assign_all_dom_id|].
  unfold platform_dict. rewrite assign_all_lookup_id.
  rewrite bool_decide_eq_true_2 by exact Hf.
  unfold platform_lookup.
  by destruct (platform_call w func) as [[s|n|[|x l]]|e].
Qed.

Lemma platform_attribute_recorded_witness :
  exists r d,
    assemble_report sample_world sample_result = (Ok r, []) /\
    r !! "platform"%string = Some (Dict d) /\
    d !! "architecture"%string = Some (VStr "64bit").
Proof.
  destruct (platform_attribute_recorded sample_world sample_result
              "architecture")
    as (r & d & Hr & Hd & _ & Hk).
  - apply (bool_decide_unpack _). exact I.
  - exists r, d. split; [exact Hr|]. split; [exact Hd|]. exact Hk.
Defined.

(** C10. In the assembled record the [failures] dictionary is empty, and
    the [errors] dictionary holds, under each textual identifier, the text
    of the last failed test with that identifier and, when no failed test
    has it, of the last errored test with it: a failure overwrites the
    error recorded under the same identifier. *)
Theorem failures_empty_and_merged_into_errors (w : World)
    (ttr : TestResult) :
  exists r d,
    assemble_report w ttr = (Ok r, []) /\
    r !! "failures"%string = Some (Dict ∅) /\
    r !! "errors"%string = Some (Dict d) /\
    forall k,
      d !! k = match last_text k (failures ttr) with
               | Some text => Some (VStr text)
               | None => VStr <$> last_text k (errors ttr)
               end.
Proof.
  exists (report_of w ttr), (errors_dict ttr).
  split; [apply assemble_report_spec|]. split; [done|]. split; [done|].
  apply errors_dict_lookup.
Qed.

(** C1. For the run [one_failure] the assembled record has no entry for
    the failed test in its [failures] dictionary, which is empty; the
    failure text is under [errors]. *)
Theorem failures_dict_misses_failed_test :
  exists r,
    assemble_report sample_world one_failure = (Ok r, []) /\
    r !! "failures"%string = Some (Dict ∅) /\
    r !! "errors"%string
    = Some (Dict {[ str test_read := VStr "Traceback: AssertionError" ]}).
Proof.
  exists (report_of sample_world one_failure).
  split; [apply assemble_report_spec|]. split; [done|].
  unfold report_of. rewrite lookup_insert_eq. do 2 f_equal.
Qed.

(** ** Delivery and the command line *)

Lemma sends_app (t1 t2 : list event) : sends (t1 ++ t2) = sends t1 ++ sends t2.
Proof. apply omap_app. Qed.

Lemma runs_app (t1 t2 : list event) : runs (t1 ++ t2) = runs t1 ++ runs t2.
Proof. apply omap_app. Qed.

Lemma sends_loading w v (names : list string) :
  sends (names ≫= load_events w v) = [].
Proof.
  induction names as [|n names IH]; [done|].
  cbn [mbind list_bind]. rewrite sends_app, IH, app_nil_r.
  unfold load_events. destruct (loadTestsFromName w n); [done|].
  by case_bool_decide.
Qed.

Lemma runs_loading w v (names : list string) :
  runs (names ≫= load_events w v) = [].
Proof.
  induction names as [|n names IH]; [done|].
  cbn [mbind list_bind]. rewrite runs_app, IH, app_nil_r.
  unfold load_events. destruct (loadTestsFromName w n); [done|].
  by case_bool_decide.
Qed.

Lemma imports_app (t1 t2 : list event) :
  imports (t1 ++ t2) = imports t1 ++ imports t2.
Proof. apply omap_app. Qed.

Lemma imports_loading w v (names : list string) :
  imports (names ≫= load_events w v) = [].
Proof.
  induction names as [|n names IH]; [done|].
  cbn [mbind list_bind]. rewrite imports_app, IH, app_nil_r.
  unfold load_events. destruct (loadTestsFromName w n); [done|].
  by case_bool_decide.
Qed.

Lemma runs_createReport (w : World) (ttr : TestResult) :
  runs (_createReport w ttr).2 = [].
Proof.
  rewrite createReport_spec. cbv zeta.
  destruct (report_rpc w _ _ _) as [[]|e]; [done|].
  by destruct (exn_is_Exception e).
Qed.

Lemma main_parse_silent (w : World) : (main_parse w).2 = [].
Proof.
  unfold main_parse, mbind, M_bind. destruct (module_doc w) as [doc|].
  - rewrite bind_ret_l. done.
  - done.
Qed.

Lemma main_unfold (w : World) :
  main w
  = match (main_parse w).1 with
    | Ok options =>
        runTests w (main_verbosity options) (largs options)
          (main_report w options)
    | Raise e => (Raise e, [])
    end.
Proof.
  unfold main, mbind, M_bind. pose proof (main_parse_silent w) as Hsilent.
  destruct (main_parse w) as [[options|e] t]; cbn in Hsilent; subst t.
  - fold (@ret Options options). rewrite bind_ret_l. cbn [fst].
    unfold main_report, main_verbosity. cbv zeta. cbn [fst ret]. by destruct (_ || _).
  - done.
Qed.

(** The test run [main] performs, and what comes after it. *)
Lemma main_spec (w : World) (options : Options) :
  (main_parse w).1 = Ok options ->
  exists (suite : TestSuite) (t0 : list event),
    runs t0 = [] /\ sends t0 = [] /\ imports t0 = [] /\
    main w
    = match run w (main_verbosity options) suite with
      | Ok ttr =>
          if main_report w options
          then ((_createReport w ttr).1,
                (t0 ++ [ERun (main_verbosity options) suite])
                ++ (_createReport w ttr).2)
          else (Ok tt, t0 ++ [ERun (main_verbosity options) suite])
      | Raise e =>
          (Raise e, t0 ++ [ERun (main_verbosity options) suite])
      end.
Proof.
  intros Hparse. rewrite main_unfold, Hparse, runTests_spec. cbv zeta.
  eexists _, _. split; [apply runs_loading|]. split; [apply sends_loading|].
  split; [apply imports_loading|]. reflexivity.
Qed.





Lemma with_report_rpc_report_of (w : World) rpc (ttr : TestResult) :
  report_of (with_report_rpc w rpc) ttr = report_of w ttr.
Proof. reflexivity. Qed.

Lemma with_report_rpc_runTests (w : World) rpc (verbosity : Z)
    (tests : list string) :
  runTests (with_report_rpc w rpc) verbosity tests false
  = runTests w verbosity tests false.
Proof. reflexivity. Qed.

(** C6. Compare a world with the same world in which every delivery
    succeeds. When the delivery call fails with an error derived from
    [Exception], [main] ends as it does when delivery succeeds, with the
    same exit status, after the same test run and with the same success
    flag and record handed to the server; and the failure is printed: the
    trace ends with the delivery attempt, the error line and the error's
    text. *)
Theorem delivery_failure_does_not_alter_run (w : World) :
  (forall u b r e, report_rpc w u b r = Raise e -> exn_is_Exception e = true) ->
  (main w).1 = (main (with_report_rpc w (fun _ _ _ => Ok tt))).1 /\
  exit_status (main w)
  = exit_status (main (with_report_rpc w (fun _ _ _ => Ok tt))) /\
  runs (main w).2
  = runs (main (with_report_rpc w (fun _ _ _ => Ok tt))).2 /\
  sends (main w).2
  = sends (main (with_report_rpc w (fun _ _ _ => Ok tt))).2 /\
  (forall u b r e,
     sends (main w).2 = [(u, b, r)] ->
     report_rpc w u b r = Raise e ->
     exists t,
       (main w).2
       = t ++ [ESend u b r;
               EPrint "Error: Could not sent a test report to http://tests.obspy.org.";
               EPrint (exn_str e)]).
Proof.
  intros Hexc. set (w' := with_report_rpc w (fun _ _ _ => Ok tt)).
  assert (Hparse' : main_parse w' = main_parse w) by reflexivity.
  destruct (main_parse w).1 as [options|e0] eqn:Hparse; cycle 1.
  { rewrite !main_unfold, Hparse', Hparse. cbn [fst snd].
    repeat (split; [done|]). intros u b r e Hsent. done. }
  assert (Hfst : (main w).1 = (main w').1 /\
                 runs (main w).2 = runs (main w').2 /\
                 sends (main w).2 = sends (main w').2).
  { rewrite !main_unfold, Hparse', Hparse, !runTests_spec. cbv zeta.
    change (main_report w' options) with (main_report w options).
    change (run w') with (run w).
    change (load_events w') with (load_events w).
    change (loadTestsFromName w') with (loadTestsFromName w).
    destruct (run w _ _) as [ttr|e]; [|done].
    destruct (main_report w options); [|done]. cbn [fst snd].
    rewrite !runs_app, !sends_app, !runs_createReport, !createReport_sends.
    split; [|done].
    rewrite !createReport_spec. cbv zeta. cbn [report_rpc w' with_report_rpc].
    destruct (report_rpc w _ _ _) as [[]|e] eqn:Hrpc; [done|].
    by rewrite (Hexc _ _ _ _ Hrpc). }
  destruct Hfst as (Hfst & Hruns & Hsends).
  split; [exact Hfst|]. split; [unfold exit_status; by rewrite Hfst|].
  split; [exact Hruns|]. split; [exact Hsends|].
  intros u b r e Hsent Hrpc.
  destruct (main_spec w options Hparse)
    as (suite0 & t0 & Hr0 & Hs0 & _ & Hmain).
  rewrite Hmain in Hsent |- *.
  destruct (run w _ _) as [ttr|e1].
  - destruct (main_report w options); cbn [snd] in *.
    + rewrite !sends_app, Hs0, createReport_sends in Hsent. cbn in Hsent.
      injection Hsent as <- <- <-.
      rewrite createReport_spec. cbv zeta. rewrite Hrpc.
      rewrite (Hexc _ _ _ _ Hrpc). cbn [snd].
      exists ((t0 ++ [ERun (main_verbosity options) suite0])
              ++ [EImport "xmlrpclib"; EImport "datetime"; EImport "platform";
                  EPrint ""]).
      by rewrite <- !app_assoc.
    + rewrite sends_app, Hs0 in Hsent. done.
  - cbn [snd] in Hsent. rewrite sends_app, Hs0 in Hsent. done.
Qed.

Lemma delivery_failure_does_not_alter_run_witness :
  report_rpc sample_world REPORT_URL false
    (report_of sample_world sample_result) = Raise socket_error /\
  exit_status (main sample_world) = 0 /\
  exit_status (main sample_world)
  = exit_status (main (with_report_rpc sample_world (fun _ _ _ => Ok tt))).
Proof.
  split; [reflexivity|]. split; [vm_compute; reflexivity|].
  destruct (delivery_failure_does_not_alter_run sample_world)
    as (_ & Hexit & _).
  - intros u b r e He. cbn in He. injection He as <-. reflexivity.
  - exact Hexit.
Defined.

(** * Further properties of the launcher *)

(** ** The resolver *)

Lemma prints_app (t1 t2 : list event) :
  prints (t1 ++ t2) = prints t1 ++ prints t2.
Proof. apply omap_app. Qed.

Lemma prints_loading w v (names : list string) :
  prints (names ≫= load_events w v)
  = if bool_decide (v = 0) then []
    else omap (fun name =>
                 match loadTestsFromName w name with
                 | Ok _ => None
                 | Raise _ => Some (import_message name)
                 end) names.
Proof.
  induction names as [|n names IH].
  - by case_bool_decide.
  - cbn [mbind list_bind omap list_omap]. rewrite prints_app, IH.
    unfold load_events.
    destruct (loadTestsFromName w n) as [s|e]; cbn.
    + done.
    + repeat case_bool_decide; try done; lia.
Qed.

(** X1. In quiet mode (verbosity 0) the resolver prints nothing; otherwise
    it prints exactly one line per name that failed to load, in the order
    of the names, and nothing for the names that loaded. *)
Theorem getSuite_diagnostics (w : World) (verbosity : Z)
    (tests : list string) :
  prints (_getSuite w verbosity tests).2
  = if bool_decide (verbosity = 0) then []
    else omap (fun name =>
                 match loadTestsFromName w name with
                 | Ok _ => None
                 | Raise _ =>
                     Some ("Cannot import test suite for module " +:+ name)
                 end) (_getSuite_names tests).
Proof. rewrite getSuite_spec. apply prints_loading. Qed.

Lemma suite_name_not_default (d : string) : suite_name d ∉ DEFAULT_MODULES.
Proof.
  intros H. apply list_elem_of_In in H. unfold suite_name in H. cbn in H.
  repeat (destruct H as [H|H]; [discriminate H|]). exact H.
Qed.

Lemma resolve_idempotent (test : string) : resolve (resolve test) = resolve test.
Proof.
  unfold resolve. destruct (decide (test ∈ DEFAULT_MODULES)) as [Hd|Hd].
  - rewrite (bool_decide_eq_true_2 _ Hd).
    by rewrite (bool_decide_eq_false_2 _ (suite_name_not_default test)).
  - by rewrite !(bool_decide_eq_false_2 _ Hd).
Qed.

Lemma getSuite_names_resolve (tests : list string) :
  _getSuite_names tests
  = resolve <$> (if bool_decide (tests = []) then DEFAULT_MODULES else tests).
Proof.
  case_bool_decide as He.
  - subst. reflexivity.
  - by apply getSuite_names_nonempty.
Qed.

Lemma getSuite_names_idempotent (tests : list string) :
  _getSuite_names (_getSuite_names tests) = _getSuite_names tests.
Proof.
  rewrite (getSuite_names_resolve tests).
  set (l := if bool_decide (tests = []) then DEFAULT_MODULES else tests).
  assert (Hl : l ≠ []).
  { unfold l. case_bool_decide; [done | done]. }
  rewrite getSuite_names_nonempty.
  - rewrite <- list_fmap_compose. apply list_fmap_ext.
    intros i x _. apply resolve_idempotent.
  - destruct l; [done | done].
Qed.

(** X2. Resolution is idempotent: handing the resolver the names it
    resolved (the fully qualified [obspy.<module>.tests.suite] instead of
    the shortcut) gives the same suite and the same trace. *)
Theorem getSuite_resolved_names_same (w : World) (verbosity : Z)
    (tests : list string) :
  _getSuite w verbosity (_getSuite_names tests) = _getSuite w verbosity tests.
Proof. by rewrite !getSuite_spec, getSuite_names_idempotent. Qed.

(** X3. Giving no reference is the same as giving every default
    shortcut, in the declared order. *)
Theorem getSuite_empty_same_as_defaults (w : World) (verbosity : Z) :
  _getSuite w verbosity []
  = _getSuite w verbosity
      ["core"; "gse2"; "mseed"; "sac"; "wav"; "signal"; "imaging";
       "xseed"; "seisan"; "sh"]%string.
Proof. rewrite !getSuite_spec. reflexivity. Qed.

Lemma runTests_runs (w : World) (verbosity : Z) (tests : list string)
    (report : bool) :
  runs (runTests w verbosity tests report).2
  = [(verbosity,
      suiteClass (omap (fun n => ok_of (loadTestsFromName w n))
                       (_getSuite_names tests)))].
Proof.
  rewrite runTests_spec. cbv zeta.
  destruct (run w verbosity _) as [ttr|e]; [destruct report|]; cbn [snd];
    rewrite ?runs_app, ?runs_createReport, runs_loading; done.
Qed.

(** X4. When none of the names loads, the resolver still returns: the
    empty suite, which [runTests] then hands to the runner. *)
Theorem nothing_loads_empty_suite (w : World) (verbosity : Z)
    (tests : list string) (report : bool) :
  (forall name, name ∈ _getSuite_names tests ->
                exists e, loadTestsFromName w name = Raise e) ->
  (_getSuite w verbosity tests).1 = Ok (Suite []) /\
  runs (runTests w verbosity tests report).2 = [(verbosity, Suite [])].
Proof.
  intros Hfail.
  assert (Hnone : omap (fun n => ok_of (loadTestsFromName w n))
                       (_getSuite_names tests) = []).
  { induction (_getSuite_names tests) as [|n names IH]; [done|].
    cbn [omap list_omap].
    destruct (Hfail n) as [e He]; [by left|]. rewrite He. cbn.
    apply IH. intros name Hin. apply Hfail. by right. }
  rewrite runTests_runs, getSuite_spec. cbn [fst]. by rewrite Hnone.
Qed.

Lemma nothing_loads_empty_suite_witness :
  (_getSuite sample_world 1 ["nosuch"]%string).1 = Ok (Suite []) /\
  runs (runTests sample_world 1 ["nosuch"]%string true).2 = [(1, Suite [])].
Proof.
  apply nothing_loads_empty_suite.
  intros name Hin. exists ImportError.
  apply list_elem_of_In in Hin. cbn in Hin.
  destruct Hin as [<-|[]]. reflexivity.
Defined.

(** ** The report *)

Lemma assign_all_dom {A} (key : A -> string) (val : A -> pyval)
    (l : list A) (d : gmap string pyval) :
  dom (assign_all key val l d) = list_to_set (key <$> l) ∪ dom d.
Proof.
  unfold assign_all. revert d. induction l as [|x l IH]; intros d; cbn.
  - set_solver.
  - rewrite IH, dom_insert_L. set_solver.
Qed.

(** X5. The keys of the [errors] dictionary are exactly the textual
    identifiers of the errored and of the failed tests: tests that print
    alike share one entry, and no other key appears. *)
Theorem errors_keys_are_test_identifiers (w : World) (ttr : TestResult) :
  exists r d,
    assemble_report w ttr = (Ok r, []) /\
    r !! "errors"%string = Some (Dict d) /\
    dom d = list_to_set ((fun item => str item.1)
                           <$> (errors ttr ++ failures ttr)).
Proof.
  exists (report_of w ttr), (errors_dict ttr).
  split; [apply assemble_report_spec|]. split; [done|].
  unfold errors_dict. rewrite !assign_all_dom, fmap_app, list_to_set_app_L.
  unfold outcome_key. set_solver.
Qed.

(** X6. The version dictionaries list every module of [ALL_MODULES]
    (the three modules outside the default run set included) and every
    dependency of [DEPENDENCIES], and nothing else, whatever was run. *)
Theorem version_dicts_keys (w : World) (ttr : TestResult) :
  exists r dv dd,
    assemble_report w ttr = (Ok r, []) /\
    r !! "obspy"%string = Some (Dict dv) /\
    r !! "dependencies"%string = Some (Dict dd) /\
    dom dv = list_to_set
               ["core"; "gse2"; "mseed"; "sac"; "wav"; "signal"; "imaging";
                "xseed"; "seisan"; "sh"; "fissures"; "arclink";
                "seishub"]%string /\
    dom dd = list_to_set
               ["numpy"; "scipy"; "matplotlib"; "lxml.etree";
                "_omnipy"]%string.
Proof.
  exists (report_of w ttr), (obspy_dict w), (dependencies_dict w).
  split; [apply assemble_report_spec|]. split; [done|]. split; [done|].
  split; apply assign_all_dom_id.
Qed.

(** X7. The timestamp and the version and platform dictionaries do not
    depend on the outcome of the run: two run results give records that
    differ at most in [errors]. *)
Theorem metadata_independent_of_outcome (w : World)
    (ttr1 ttr2 : TestResult) :
  exists r1 r2,
    assemble_report w ttr1 = (Ok r1, []) /\
    assemble_report w ttr2 = (Ok r2, []) /\
    delete "errors"%string r1 = delete "errors"%string r2.
Proof.
  exists (report_of w ttr1), (report_of w ttr2).
  split; [apply assemble_report_spec|]. split; [apply assemble_report_spec|].
  unfold report_of. by rewrite !delete_insert_eq.
Qed.

(** X8. The entry of [_omnipy] is what [coreVersion()] returns and never
    [__version__]: a module that has a [__version__] but whose
    [coreVersion()] raises is recorded with the empty string. *)
Theorem omnipy_uses_coreVersion (w : World) (ttr : TestResult)
    (m : PyModule) :
  import_ w "_omnipy" (FromList []) = Ok m ->
  exists r d,
    assemble_report w ttr = (Ok r, []) /\
    r !! "dependencies"%string = Some (Dict d) /\
    d !! "_omnipy"%string
    = Some match mod_coreVersion m with
           | Ok v => v
           | Raise _ => VStr ""
           end.
Proof.
  intros Him. exists (report_of w ttr), (dependencies_dict w).
  split; [apply assemble_report_spec|]. split; [done|].
  unfold dependencies_dict. rewrite assign_all_lookup_id.
  rewrite bool_decide_eq_true_2
    by (apply (bool_decide_unpack _); exact I).
  unfold dependency_lookup.
  change (drop 1 (split "." "_omnipy")) with (@nil string).
  rewrite Him. by rewrite bool_decide_eq_true_2.
Qed.

Lemma omnipy_uses_coreVersion_witness :
  exists r d,
    assemble_report (with_import sample_world (fun _ _ => Ok versioned_module))
      sample_result = (Ok r, []) /\
    r !! "dependencies"%string = Some (Dict d) /\
    d !! "_omnipy"%string = Some (VStr "").
Proof.
  apply (omnipy_uses_coreVersion
           (with_import sample_world (fun _ _ => Ok versioned_module))
           sample_result versioned_module).
  reflexivity.
Defined.

(** ** Running and delivering *)

Lemma loads_createReport (w : World) (ttr : TestResult) :
  loads (_createReport w ttr).2 = [].
Proof.
  rewrite createReport_spec. cbv zeta.
  destruct (report_rpc w _ _ _) as [[]|e]; [done|].
  by destruct (exn_is_Exception e).
Qed.

(** X9. An exception of the test runner is not caught: it leaves
    [runTests], and no report is assembled or sent even when one was asked
    for. *)
Theorem runner_exception_propagates (w : World) (verbosity : Z)
    (tests : list string) (report : bool) (suite : TestSuite) (e : exn) :
  (_getSuite w verbosity tests).1 = Ok suite ->
  run w verbosity suite = Raise e ->
  (runTests w verbosity tests report).1 = Raise e /\
  sends (runTests w verbosity tests report).2 = [] /\
  prints (runTests w verbosity tests report).2
  = prints (_getSuite w verbosity tests).2.
Proof.
  intros Hsuite Hrun. rewrite runTests_spec. cbv zeta.
  rewrite getSuite_spec in Hsuite |- *. cbn [fst snd] in Hsuite |- *.
  injection Hsuite as Hsuite. rewrite Hsuite, Hrun. cbn [fst snd].
  split; [done|].
  rewrite sends_app, prints_app, sends_loading. cbn.
  by rewrite app_nil_r.
Qed.

Lemma runner_exception_propagates_witness :
  (runTests (with_run sample_world (fun _ _ => Raise KeyboardInterrupt))
     1 ["mseed"]%string true).1 = Raise KeyboardInterrupt /\
  sends (runTests (with_run sample_world (fun _ _ => Raise KeyboardInterrupt))
           1 ["mseed"]%string true).2 = [].
Proof.
  destruct (runner_exception_propagates
              (with_run sample_world (fun _ _ => Raise KeyboardInterrupt))
              1 ["mseed"]%string true
              (Suite [Suite [Case test_read]]) KeyboardInterrupt)
    as (Hr & Hs & _); [reflexivity | reflexivity |].
  split; [exact Hr | exact Hs].
Defined.

(** X10. A throwable of the delivery call that does not derive from
    [Exception] (an interrupt) is not caught: it leaves [_createReport]
    after the blank line and the attempt, and neither of the two messages
    is printed. *)
Theorem delivery_interrupt_propagates (w : World) (ttr : TestResult)
    (e : exn) :
  (forall record,
     report_rpc w "http://localhost:8000/" (wasSuccessful ttr) record
     = Raise e) ->
  exn_is_Exception e = false ->
  (_createReport w ttr).1 = Raise e /\
  prints (_createReport w ttr).2 = [""%string] /\
  length (sends (_createReport w ttr).2) = 1%nat.
Proof.
  intros Hrpc Hexc. rewrite createReport_spec. cbv zeta.
  unfold REPORT_URL. rewrite Hrpc, Hexc. done.
Qed.

Lemma delivery_interrupt_propagates_witness :
  (_createReport
     (with_report_rpc sample_world (fun _ _ _ => Raise KeyboardInterrupt))
     sample_result).1 = Raise KeyboardInterrupt.
Proof.
  apply (delivery_interrupt_propagates
           (with_report_rpc sample_world (fun _ _ _ => Raise KeyboardInterrupt))
           sample_result KeyboardInterrupt).
  - intros record. reflexivity.
  - reflexivity.
Defined.

(** X11. When the delivery call returns, [_createReport] returns too and
    prints the blank line and then the confirmation, and nothing else. *)
Theorem delivery_success_confirmed (w : World) (ttr : TestResult) :
  (forall record,
     report_rpc w "http://localhost:8000/" (wasSuccessful ttr) record
     = Ok tt) ->
  (_createReport w ttr).1 = Ok tt /\
  prints (_createReport w ttr).2
  = [""; "Test report has been sent to http://tests.obspy.org."]%string.
Proof.
  intros Hrpc. rewrite createReport_spec. cbv zeta.
  unfold REPORT_URL. rewrite Hrpc. done.
Qed.

Lemma delivery_success_confirmed_witness :
  prints (_createReport
            (with_report_rpc sample_world (fun _ _ _ => Ok tt))
            sample_result).2
  = [""; "Test report has been sent to http://tests.obspy.org."]%string.
Proof.
  apply (delivery_success_confirmed
           (with_report_rpc sample_world (fun _ _ _ => Ok tt)) sample_result).
  intros record. reflexivity.
Defined.

(** X12. [runTests] works in three phases: every load attempt comes
    before the one run of the suite, and whatever is sent comes after it;
    nothing is loaded or run once the run is over. *)
Theorem runTests_phases (w : World) (verbosity : Z) (tests : list string)
    (report : bool) :
  exists before suite after,
    (runTests w verbosity tests report).2
    = before ++ ERun verbosity suite :: after /\
    loads before = _getSuite_names tests /\
    runs before = [] /\ sends before = [] /\
    loads after = [] /\ runs after = [].
Proof.
  rewrite runTests_spec. cbv zeta.
  exists (_getSuite_names tests ≫= load_events w verbosity).
  eexists.
  destruct (run w verbosity _) as [ttr|e]; [destruct report|]; cbn [snd].
  - exists (_createReport w ttr).2.
    rewrite <- app_assoc. split; [reflexivity|].
    rewrite loads_bind_load_events, runs_loading, sends_loading.
    by rewrite loads_createReport, runs_createReport.
  - exists []. split; [reflexivity|].
    by rewrite loads_bind_load_events, runs_loading, sends_loading.
  - exists []. split; [reflexivity|].
    by rewrite loads_bind_load_events, runs_loading, sends_loading.
Qed.


(** X14. [main] calls the report server at most once, and only at
    [http://localhost:8000/]. *)
Theorem main_sends_at_most_once (w : World) :
  sends (main w).2 = [] \/
  exists success record,
    sends (main w).2 = [("http://localhost:8000/"%string, success, record)].
Proof.
  rewrite main_unfold. destruct (main_parse w).1 as [options|e0];
    [|by left].
  rewrite runTests_spec. cbv zeta.
  destruct (run w _ _) as [ttr|e]; [destruct (main_report w options)|];
    cbn [snd]; rewrite ?sends_app, sends_loading.
  - right. rewrite createReport_sends. by eexists _, _.
  - by left.
  - by left.
Qed.



(** ** Splitting module names *)

Lemma split_nonempty (sep : ascii) (s : string) : split sep s ≠ [].
Proof.
  destruct s as [|c s]; cbn; [done|].
  case_decide; [done|]. by destruct (split sep s).
Qed.

(** X15. Splitting a dotted name loses nothing: joining the parts with
    the separator gives the name back, and there is always at least one
    part, so that the slice [temp[1:]] is defined. *)
Theorem split_join (sep : ascii) (s : string) :
  join sep (split sep s) = s /\ (0 < length (split sep s))%nat.
Proof.
  split.
  - induction s as [|c s IH]; [done|].
    cbn [split]. pose proof (split_nonempty sep s) as Hne.
    destruct (split sep s) as [|h t]; [done|].
    case_decide as Hc.
    + subst c. cbn [join]. cbn. by rewrite <- IH.
    + cbn [join] in IH |- *. destruct t as [|h' t'].
      * by rewrite IH.
      * rewrite <- IH. done.
  - pose proof (split_nonempty sep s). destruct (split sep s); [done|].
    cbn. lia.
Qed.
